(** * Linked Data Notifications client: discovery, listing and sending

    A shallow embedding of the two copies of the LDN helper module,
    [src/unnamed/part_000] (discoverInboxUri, list, send) and
    [src/src/index.js] (discoverInboxUri, send), with the properties of the
    specification proved over it.

    The module is a chain of promise callbacks around an injected web
    client.  A promise is modelled as a computation over the client's state
    that either resolves or rejects and that records every use of a client
    capability (GET, request, parsedGraph) in a trace. *)

From Stdlib Require Import String List Bool Arith Lia.
From stdpp Require Import base option gmap strings list.

Import ListNotations.
Local Open Scope string_scope.
Local Open Scope list_scope.

(* ===================================================================== *)
(** ** JavaScript values of the data model                                *)
(* ===================================================================== *)

(** [if (s)] on a string: only the empty string is falsy. *)
Definition truthy (s : string) : bool :=
  match s with
  | EmptyString => false
  | String _ _ => true
  end.

(** [if (o[k])] on a property that may be missing: [undefined] is falsy. *)
Definition truthy_opt (o : option string) : bool :=
  match o with
  | Some s => truthy s
  | None => false
  end.

(** [if (x) { th(x) } else { el }] on a string property [x] that may be
    missing: the missing property and the empty string take the else branch. *)
Definition if_truthy {A : Type} (o : option string) (th : string -> A) (el : A) : A :=
  match o with
  | Some s => if truthy s then th s else el
  | None => el
  end.

(** [a || b] on an optional string property and a string default. *)
Definition or_default (o : option string) (d : string) : string :=
  if_truthy o (fun s => s) d.

(** An RDF term as the module reads it: [matches[0].object.value]. *)
Record Term := mkTerm { value : string }.

Record Triple := mkTriple { subject : Term; predicate : Term; object : Term }.

(** The parsed graph, queried through the client library's own primitive
    [graph.match(subject, predicate, object)]; [None] stands for a [null] or
    missing argument.  Its result order belongs to the library. *)
Record Graph := mkGraph {
  match_ : option Term -> option Term -> option Term -> list Triple
}.

(** [webClient.rdf]: the RDF namespace object. *)
Record RdfNamespace := mkRdf { namedNode : string -> Term }.

(** The options object of a request: [{ headers: { ... } }]. *)
Record RequestOptions := mkRequestOptions { headers : gmap string string }.

(** [Object.keys] of a mapping kept in insertion order. *)
Definition Object_keys {V : Type} (o : list (string * V)) : list string :=
  map fst o.

(* ===================================================================== *)
(** ** Outcomes and the trace of client calls                             *)
(* ===================================================================== *)

(** What a rejected promise carries: an [Error] object made by this module
    ([new Error(message)]), or whatever the client threw or rejected with,
    passed on as it is. *)
Inductive Failure :=
| Error (message : string)
| Thrown (reason : string).

(** The answer of a client capability. *)
Inductive Reply (A : Type) :=
| Ok (a : A)
| Raise (reason : string).
Arguments Ok {A} a.
Arguments Raise {A} reason.

(** The settled state of a promise. *)
Inductive Outcome (A : Type) :=
| Resolved (a : A)
| Rejected (e : Failure).
Arguments Resolved {A} a.
Arguments Rejected {A} e.

Definition settle {A : Type} (r : Reply A) : Outcome A :=
  match r with
  | Ok a => Resolved a
  | Raise reason => Rejected (Thrown reason)
  end.

(** One entry per use of a client capability. *)
Inductive Event :=
| EvGet (uri : string) (options : option RequestOptions)
| EvSolidRequest (uri method : string) (options : RequestOptions) (body : string)
| EvParsedGraph.

Definition is_get (e : Event) : bool :=
  match e with EvGet _ _ => true | _ => false end.
Definition is_request (e : Event) : bool :=
  match e with EvSolidRequest _ _ _ _ => true | _ => false end.
Definition is_parse (e : Event) : bool :=
  match e with EvParsedGraph => true | _ => false end.

(** Counters read off a trace. *)
Definition gets (tr : list Event) : nat := length (filter is_get tr).
Definition requests (tr : list Event) : nat := length (filter is_request tr).
Definition parses (tr : list Event) : nat := length (filter is_parse tr).

(* ===================================================================== *)
(** ** The injected client and the promise monad                          *)
(* ===================================================================== *)

Section Client.
Variable W : Type.  (* the state of the client and of the servers behind it *)

(** A SolidResponse: the parts of it this module reads. *)
Record SolidResponse := mkSolidResponse {
  linkHeaders : gmap string string;
  parsedGraph : W -> Reply Graph * W;
  resources : list (string * list string)
}.

(** A SolidWebClient: the capabilities this module uses. *)
Record SolidWebClient := mkSolidWebClient {
  get : string -> option RequestOptions -> W -> Reply SolidResponse * W;
  solidRequest :
    string -> string -> RequestOptions -> string -> W -> Reply SolidResponse * W;
  rdf : RdfNamespace
}.

(** The options hashmap of [list] and [send]. *)
Record Options := mkOptions {
  webClient : option SolidWebClient;
  inboxUri : option string;
  contentType : option string
}.

Record State := mkState { world : W; trace : list Event }.

Definition Promise (A : Type) : Type := State -> Outcome A * State.

Definition resolve {A : Type} (a : A) : Promise A :=
  fun st => (Resolved a, st).

Definition reject {A : Type} (e : Failure) : Promise A :=
  fun st => (Rejected e, st).

(** [p.then(k)]: a rejection skips the callback. *)
Definition then_ {A B : Type} (p : Promise A) (k : A -> Promise B) : Promise B :=
  fun st =>
    match p st with
    | (Resolved a, st') => k a st'
    | (Rejected e, st') => (Rejected e, st')
    end.

(** A use of a client capability: logged, run on the client's state, and
    its failure turned into a rejection. *)
Definition invoke {A : Type} (ev : Event) (f : W -> Reply A * W) : Promise A :=
  fun st =>
    let '(r, w) := f (world st) in
    (settle r, {| world := w; trace := trace st ++ [ev] |}).

(** [webClient.get(uri, options)] *)
Definition webClient_get (c : SolidWebClient) (uri : string)
    (options : option RequestOptions) : Promise SolidResponse :=
  invoke (EvGet uri options) (get c uri options).

(** [webClient.solidRequest(uri, method, options, body)] *)
Definition webClient_solidRequest (c : SolidWebClient) (uri method : string)
    (options : RequestOptions) (body : string) : Promise SolidResponse :=
  invoke (EvSolidRequest uri method options body)
         (solidRequest c uri method options body).

(** [resource.parsedGraph()] *)
Definition resource_parsedGraph (resource : SolidResponse) : Promise Graph :=
  invoke EvParsedGraph (parsedGraph resource).
End Client.

Arguments linkHeaders {W} _.
Arguments parsedGraph {W} _ _.
Arguments resources {W} _.
Arguments mkSolidResponse {W} _ _ _.
Arguments get {W} _ _ _ _.
Arguments solidRequest {W} _ _ _ _ _ _.
Arguments rdf {W} _.
Arguments mkSolidWebClient {W} _ _ _.
Arguments webClient {W} _.
Arguments inboxUri {W} _.
Arguments contentType {W} _.
Arguments mkOptions {W} _ _ _.
Arguments world {W} _.
Arguments trace {W} _.
Arguments mkState {W} _ _.
Arguments resolve {W A} _ _.
Arguments reject {W A} _ _.
Arguments then_ {W A B} _ _ _.
Arguments invoke {W A} _ _ _.
Arguments webClient_get {W} _ _ _ _.
Arguments webClient_solidRequest {W} _ _ _ _ _ _.
Arguments resource_parsedGraph {W} _ _.

Declare Scope promise_scope.
Delimit Scope promise_scope with promise.
Notation "'let!' x ':=' p 'in' k" := (then_ p (fun x => k))
  (at level 10, x name, p at level 200, k at level 200) : promise_scope.
Local Open Scope promise_scope.

(* ===================================================================== *)
(** ** src/unnamed/part_000                                               *)
(* ===================================================================== *)

Module Notifications.
Definition DEFAULT_CONTENT_TYPE : string := "application/ld+json".
Definition DEFAULT_ACCEPT : string := "application/ld+json;q=0.9,text/turtle;q=0.8".
Definition INBOX_LINK_REL : string := "http://www.w3.org/ns/ldp#inbox".

Section WithClient.
Context {W : Type}.

Definition discoverInboxUri (uri : string) (webClient : SolidWebClient W)
    (resource : option (SolidResponse W)) : Promise W string :=
  let! resource :=
    match resource with
    | Some resource => resolve resource
    | None =>
        let options :=
          {| headers := {[ "Accept" := DEFAULT_ACCEPT ]} |} in
        webClient_get webClient uri (Some options)
    end in
  (* First check the headers for an inbox link rel *)
  let inboxLinkRel := linkHeaders resource !! INBOX_LINK_REL in
  if_truthy inboxLinkRel (fun inboxLinkRel => resolve inboxLinkRel) (
    (* If not found, parse the body, look for an ldp:inbox predicate *)
    let rdf := rdf webClient in
    let! body := resource_parsedGraph resource in
    let matches := match_ body None (Some (namedNode rdf INBOX_LINK_REL)) None in
    match matches with
    | m0 :: _ => resolve (value (object m0))
    | [] => reject (Error "No inbox uri found for resource.")
    end).

Definition list (resourceUri : string) (options : Options W)
    : Promise W (list string) :=
  match webClient options with
  | None => reject (Error "Web client instance is required")
  | Some webClient =>
      let! inboxUri :=
        if_truthy (inboxUri options) (fun inboxUri => resolve inboxUri)
                  (discoverInboxUri resourceUri webClient None) in
      let! container :=
        let options :=
          {| headers := {[ "Accept" := DEFAULT_ACCEPT ]} |} in
        webClient_get webClient inboxUri (Some options) in
      resolve (Object_keys (resources container))
  end.

Definition send (resourceUri payload : string) (options : Options W)
    : Promise W (SolidResponse W) :=
  match webClient options with
  | None => reject (Error "Web client instance is required")
  | Some webClient =>
      let! inboxUri :=
        if_truthy (inboxUri options) (fun inboxUri => resolve inboxUri)
                  (discoverInboxUri resourceUri webClient None) in
      let contentType := or_default (contentType options) DEFAULT_CONTENT_TYPE in
      let postOptions :=
        {| headers := {[ "Content-Type" := contentType ]} |} in
      webClient_solidRequest webClient inboxUri "POST" postOptions payload
  end.
End WithClient.
End Notifications.

(* ===================================================================== *)
(** ** src/src/index.js                                                   *)
(* ===================================================================== *)

Module Index.
Definition DEFAULT_CONTENT_TYPE : string := "application/ld+json".
Definition INBOX_LINK_REL : string := "http://www.w3.org/ns/ldp#inbox".

Section WithClient.
Context {W : Type}.

Definition discoverInboxUri (uri : string) (webClient : SolidWebClient W)
    (resource : option (SolidResponse W)) : Promise W string :=
  let! resource :=
    match resource with
    | Some resource => resolve resource
    | None => webClient_get webClient uri None
    end in
  (* First check the headers for an inbox link rel *)
  let inboxLinkRel := linkHeaders resource !! INBOX_LINK_REL in
  if_truthy inboxLinkRel (fun inboxLinkRel => resolve inboxLinkRel) (
    (* If not found, parse the body, look for an ldp:inbox predicate *)
    let rdf := rdf webClient in
    let! body := resource_parsedGraph resource in
    let matches := match_ body None (Some (namedNode rdf INBOX_LINK_REL)) None in
    match matches with
    | m0 :: _ => resolve (value (object m0))
    | [] => reject (Error "No inbox uri found for resource.")
    end).

Definition send (resourceUri payload : string) (options : Options W)
    : Promise W (SolidResponse W) :=
  match webClient options with
  | None => reject (Error "Web client instance is required")
  | Some webClient =>
      let! inboxUri :=
        if_truthy (inboxUri options) (fun inboxUri => resolve inboxUri)
                  (discoverInboxUri resourceUri webClient None) in
      let contentType := or_default (contentType options) DEFAULT_CONTENT_TYPE in
      let postOptions :=
        {| headers := {[ "Content-Type" := contentType ]} |} in
      webClient_solidRequest webClient inboxUri "POST" postOptions payload
  end.
End WithClient.
End Index.

(* ===================================================================== *)
(** ** The two copies side by side                                        *)
(* ===================================================================== *)

Inductive Copy := Part000 | IndexJs.

Definition discoverInboxUri_of {W : Type} (f : Copy)
    : string -> SolidWebClient W -> option (SolidResponse W) -> Promise W string :=
  match f with
  | Part000 => Notifications.discoverInboxUri
  | IndexJs => Index.discoverInboxUri
  end.

Definition send_of {W : Type} (f : Copy)
    : string -> string -> Options W -> Promise W (SolidResponse W) :=
  match f with
  | Part000 => Notifications.send
  | IndexJs => Index.send
  end.

(** The second argument of the discovery GET in each copy. *)
Definition discoveryOptions (f : Copy) : option RequestOptions :=
  match f with
  | Part000 =>
      Some {| headers := {[ "Accept" := "application/ld+json;q=0.9,text/turtle;q=0.8" ]} |}
  | IndexJs => None
  end.

(** The resource that discovery inspects, and the state it is inspected in:
    the resource passed in, or else the one the GET resolves to. *)
Definition inspected {W : Type} (f : Copy) (uri : string) (c : SolidWebClient W)
    (pre : option (SolidResponse W)) (st : State W)
    (resource : SolidResponse W) (st1 : State W) : Prop :=
  match pre with
  | Some given => given = resource /\ st1 = st
  | None => webClient_get c uri (discoveryOptions f) st = (Resolved resource, st1)
  end.

(** The body search of discovery, as run on a parsed graph. *)
Definition inboxMatches {W : Type} (c : SolidWebClient W) (body : Graph) : list Triple :=
  match_ body None (Some (namedNode (rdf c) "http://www.w3.org/ns/ldp#inbox")) None.

(** The second half of discovery on its own: parse the body and search it. *)
Definition bodySearch {W : Type} (c : SolidWebClient W) (resource : SolidResponse W)
    : Promise W string :=
  let! body := resource_parsedGraph resource in
  match inboxMatches c body with
  | m0 :: _ => resolve (value (object m0))
  | [] => reject (Error "No inbox uri found for resource.")
  end.

(** The inbox uri that [list] and [send] go on with, and the state they go
    on in: the truthy [options.inboxUri], or else what discovery resolves to. *)
Definition inboxResolved {W : Type} (f : Copy) (resourceUri : string)
    (c : SolidWebClient W) (options : Options W) (st : State W)
    (u : string) (st1 : State W) : Prop :=
  if_truthy (inboxUri options)
    (fun supplied => supplied = u /\ st1 = st)
    (discoverInboxUri_of f resourceUri c None st = (Resolved u, st1)).

(* ===================================================================== *)
(** ** A test client                                                      *)
(* ===================================================================== *)

(** A small in-memory client in the manner of a test double: its state
    counts the calls it served; its graphs answer [match] by filtering a
    list of triples, a missing argument matching everything. *)
Module Fixture.
Definition term_eqb (a b : Term) : bool := String.eqb (value a) (value b).

Definition matches_term (pat : option Term) (t : Term) : bool :=
  match pat with
  | None => true
  | Some p => term_eqb p t
  end.

Definition graphOf (ts : list Triple) : Graph :=
  {| match_ := fun s p o =>
       filter (fun t => matches_term s (subject t)
                        && matches_term p (predicate t)
                        && matches_term o (object t)) ts |}.

Definition doc : string := "https://example.org/doc".
Definition inbox : string := "https://example.org/inbox".
Definition ldp_inbox : Term := mkTerm "http://www.w3.org/ns/ldp#inbox".
Definition dc_title : Term := mkTerm "http://purl.org/dc/terms/title".

Definition parsed (ts : list Triple) : nat -> Reply Graph * nat :=
  fun n => (Ok (graphOf ts), S n).

(** Link header only. *)
Definition linked : SolidResponse nat :=
  {| linkHeaders := {[ "http://www.w3.org/ns/ldp#inbox" := inbox ]};
     parsedGraph := parsed [];
     resources := [] |}.

(** No link header; the body names two inboxes after a title. *)
Definition described : SolidResponse nat :=
  {| linkHeaders := {[ "type" := "http://www.w3.org/ns/ldp#Resource" ]};
     parsedGraph :=
       parsed [ mkTriple (mkTerm doc) dc_title (mkTerm "A document");
                mkTriple (mkTerm doc) ldp_inbox (mkTerm "https://example.org/inbox-a");
                mkTriple (mkTerm doc) ldp_inbox (mkTerm "https://example.org/inbox-b") ];
     resources := [] |}.

(** An empty link header value; the body names an inbox. *)
Definition blankLinked : SolidResponse nat :=
  {| linkHeaders := {[ "http://www.w3.org/ns/ldp#inbox" := "" ]};
     parsedGraph :=
       parsed [ mkTriple (mkTerm doc) ldp_inbox (mkTerm "https://example.org/inbox-a") ];
     resources := [] |}.

(** Neither a link header nor an inbox triple. *)
Definition bare : SolidResponse nat :=
  {| linkHeaders := ∅;
     parsedGraph := parsed [ mkTriple (mkTerm doc) dc_title (mkTerm "A document") ];
     resources := [] |}.

(** The inbox container with two notifications. *)
Definition container : SolidResponse nat :=
  {| linkHeaders := ∅;
     parsedGraph := parsed [];
     resources := [ ("https://example.org/inbox/1", []);
                    ("https://example.org/inbox/2", []) ] |}.

Definition created : SolidResponse nat :=
  {| linkHeaders := ∅; parsedGraph := parsed []; resources := [] |}.

(** A client whose server answers every GET of [doc] with [resource]. *)
Definition client (resource : SolidResponse nat) : SolidWebClient nat :=
  {| get := fun uri _ n =>
       if String.eqb uri doc then (Ok resource, S n)
       else if String.eqb uri inbox then (Ok container, S n)
       else (Raise "404 Not Found", S n);
     solidRequest := fun uri method _ _ n =>
       if String.eqb uri inbox && String.eqb method "POST" then (Ok created, S n)
       else (Raise "405 Method Not Allowed", S n);
     rdf := {| namedNode := mkTerm |} |}.

Definition start : State nat := {| world := 0; trace := [] |}.

(** The options of a GET that negotiates JSON-LD and Turtle. *)
Definition accept : option RequestOptions :=
  Some {| headers := {[ "Accept" := "application/ld+json;q=0.9,text/turtle;q=0.8" ]} |}.

Definition outcome_of {A : Type} (r : Outcome A * State nat) : Outcome A := fst r.
Definition trace_of {A : Type} (r : Outcome A * State nat) : list Event := trace (snd r).
End Fixture.

(* ===================================================================== *)
(** ** Shapes of trace entries, and a failing test client                 *)
(* ===================================================================== *)

(** A trace entry as [list] of part_000 adds them: a GET that negotiates
    JSON-LD and Turtle, or a parse; never a request. *)
Definition negotiated (e : Event) : Prop :=
  match e with
  | EvGet _ options =>
      options =
      Some {| headers := {[ "Accept" := "application/ld+json;q=0.9,text/turtle;q=0.8" ]} |}
  | EvSolidRequest _ _ _ _ => False
  | EvParsedGraph => True
  end.

(** A request as [send] issues it: a POST whose only header is a
    Content-Type that is not empty. *)
Definition typed_post (e : Event) : Prop :=
  match e with
  | EvSolidRequest _ method options _ =>
      method = "POST"
      /\ exists ct, headers options = {[ "Content-Type" := ct ]} /\ truthy ct = true
  | _ => True
  end.

(** Resources and a server that fail: a body that does not parse, and an
    inbox that refuses every request. *)
Module Faulty.
Definition garbled : SolidResponse nat :=
  {| linkHeaders := {[ "type" := "http://www.w3.org/ns/ldp#Resource" ]};
     parsedGraph := fun n => (Raise "Unexpected token", S n);
     resources := [] |}.

Definition client (resource : SolidResponse nat) : SolidWebClient nat :=
  {| get := fun uri _ n =>
       if String.eqb uri Fixture.doc then (Ok resource, S n)
       else (Raise "503 Service Unavailable", S n);
     solidRequest := fun _ _ _ _ n => (Raise "403 Forbidden", S n);
     rdf := {| namedNode := mkTerm |} |}.
End Faulty.

(* ===================================================================== *)
(** ** Basic facts: truthiness, counters, promise steps                   *)
(* ===================================================================== *)

Lemma truthy_true_iff (s : string) : truthy s = true <-> s <> "".
Proof. destruct s; simpl; split; intros H; congruence. Qed.

Lemma truthy_false_iff (s : string) : truthy s = false <-> s = "".
Proof. destruct s; simpl; split; intros H; congruence. Qed.

Lemma if_truthy_taken {A : Type} (o : option string) (s : string) (th : string -> A) (el : A) :
  o = Some s -> truthy s = true -> if_truthy o th el = th s.
Proof. intros -> Hs. unfold if_truthy. now rewrite Hs. Qed.

Lemma if_truthy_skipped {A : Type} (o : option string) (th : string -> A) (el : A) :
  truthy_opt o = false -> if_truthy o th el = el.
Proof. destruct o as [s|]; simpl; [intros ->|]; reflexivity. Qed.

Lemma truthy_opt_cases (o : option string) :
  (exists s, o = Some s /\ truthy s = true) \/ truthy_opt o = false.
Proof.
  destruct o as [s|]; simpl; [|now right].
  destruct (truthy s) eqn:Hs; [left; eauto | now right].
Qed.

Lemma gets_app (a b : list Event) : gets (a ++ b) = gets a + gets b.
Proof. unfold gets. now rewrite filter_app, length_app. Qed.

Lemma requests_app (a b : list Event) : requests (a ++ b) = requests a + requests b.
Proof. unfold requests. now rewrite filter_app, length_app. Qed.

Lemma parses_app (a b : list Event) : parses (a ++ b) = parses a + parses b.
Proof. unfold parses. now rewrite filter_app, length_app. Qed.

Ltac count_events :=
  rewrite ?gets_app, ?requests_app, ?parses_app;
  unfold gets, requests, parses; simpl; lia.

Section Steps.
Context {W : Type}.
Implicit Types (st : State W) (c : SolidWebClient W) (resource : SolidResponse W).

Lemma then_resolved {A B : Type} (p : Promise W A) (k : A -> Promise W B) st a st1 :
  p st = (Resolved a, st1) -> then_ p k st = k a st1.
Proof. intros H. unfold then_. now rewrite H. Qed.

Lemma then_rejected {A B : Type} (p : Promise W A) (k : A -> Promise W B) st e st1 :
  p st = (Rejected e, st1) -> then_ p k st = (Rejected e, st1).
Proof. intros H. unfold then_. now rewrite H. Qed.

Lemma invoke_run {A : Type} (ev : Event) (f : W -> Reply A * W) st r w :
  f (world st) = (r, w) ->
  invoke ev f st = (settle r, {| world := w; trace := trace st ++ [ev] |}).
Proof. intros H. unfold invoke. now rewrite H. Qed.

Lemma invoke_trace {A : Type} (ev : Event) (f : W -> Reply A * W) st :
  trace (snd (invoke ev f st)) = trace st ++ [ev].
Proof. unfold invoke. now destruct (f (world st)). Qed.

(** Discovery, once the resource is at hand, is the header test followed
    by the body search, in both copies. *)
Lemma discover_inspected (f : Copy) uri c pre st resource st1 :
  inspected f uri c pre st resource st1 ->
  discoverInboxUri_of f uri c pre st =
  if_truthy (linkHeaders resource !! "http://www.w3.org/ns/ldp#inbox")
    (fun v => resolve v) (bodySearch c resource) st1.
Proof.
  unfold inspected. intros H.
  destruct pre as [given|].
  - destruct H as [-> ->]. now destruct f.
  - destruct f; simpl in *;
      [unfold Notifications.discoverInboxUri | unfold Index.discoverInboxUri];
      now erewrite then_resolved by exact H.
Qed.

(** Without a truthy inbox link header, discovery is the body search. *)
Lemma discover_without_header (f : Copy) uri c pre st resource st1 :
  inspected f uri c pre st resource st1 ->
  truthy_opt (linkHeaders resource !! "http://www.w3.org/ns/ldp#inbox") = false ->
  discoverInboxUri_of f uri c pre st = bodySearch c resource st1.
Proof.
  intros Hi Hf. rewrite (discover_inspected _ _ _ _ _ _ _ Hi).
  now rewrite if_truthy_skipped.
Qed.

(** Getting hold of the resource costs no parse, no request, and a GET
    exactly when the resource was not passed in. *)
Lemma inspected_trace (f : Copy) uri c pre st resource st1 :
  inspected f uri c pre st resource st1 ->
  trace st1 = trace st ++
              match pre with
              | Some _ => []
              | None => [EvGet uri (discoveryOptions f)]
              end.
Proof.
  unfold inspected. destruct pre as [given|].
  - intros [_ ->]. now rewrite app_nil_r.
  - intros H. unfold webClient_get in H.
    pose proof (invoke_trace (EvGet uri (discoveryOptions f))
                             (get c uri (discoveryOptions f)) st) as Ht.
    now rewrite H in Ht.
Qed.

(** When the GET of discovery fails, its reason is passed on. *)
Lemma discover_get_failed (f : Copy) uri c st reason w :
  get c uri (discoveryOptions f) (world st) = (Raise reason, w) ->
  discoverInboxUri_of f uri c None st =
  (Rejected (Thrown reason),
   {| world := w; trace := trace st ++ [EvGet uri (discoveryOptions f)] |}).
Proof.
  intros H.
  destruct f; simpl in *;
    [unfold Notifications.discoverInboxUri | unfold Index.discoverInboxUri];
    (erewrite then_rejected; [reflexivity|]);
    unfold webClient_get; now erewrite invoke_run by exact H.
Qed.

(** The body search parses once and makes no network call. *)
Lemma bodySearch_run c resource st r w :
  parsedGraph resource (world st) = (r, w) ->
  bodySearch c resource st =
  (match r with
   | Ok body =>
       match inboxMatches c body with
       | m0 :: _ => Resolved (value (object m0))
       | [] => Rejected (Error "No inbox uri found for resource.")
       end
   | Raise reason => Rejected (Thrown reason)
   end,
   {| world := w; trace := trace st ++ [EvParsedGraph] |}).
Proof.
  intros H. unfold bodySearch, then_, resource_parsedGraph.
  erewrite invoke_run by exact H.
  destruct r as [body|reason]; simpl; [|reflexivity].
  now destruct (inboxMatches c body).
Qed.

Lemma bodySearch_trace c resource st :
  trace (snd (bodySearch c resource st)) = trace st ++ [EvParsedGraph].
Proof.
  destruct (parsedGraph resource (world st)) as [r w] eqn:H.
  now rewrite (bodySearch_run _ _ _ _ _ H).
Qed.

(** Every run of discovery adds to the trace at most one GET, first, and
    at most one parse, and never a request. *)
Lemma discover_trace (f : Copy) uri c pre st :
  exists fetch parse,
    trace (snd (discoverInboxUri_of f uri c pre st)) = trace st ++ fetch ++ parse
    /\ fetch = match pre with
               | Some _ => []
               | None => [EvGet uri (discoveryOptions f)]
               end
    /\ (parse = [] \/ parse = [EvParsedGraph]).
Proof.
  destruct pre as [given|].
  - exists [], (match truthy_opt (linkHeaders given !! "http://www.w3.org/ns/ldp#inbox")
                with true => [] | false => [EvParsedGraph] end).
    rewrite (discover_inspected f uri c (Some given) st given st) by now split.
    destruct (truthy_opt_cases (linkHeaders given !! "http://www.w3.org/ns/ldp#inbox"))
      as [(v & Hv & Ht) | Hf].
    + rewrite (if_truthy_taken _ v) by assumption.
      rewrite Hv; simpl; rewrite Ht, ?app_nil_r. auto.
    + rewrite if_truthy_skipped by assumption. rewrite Hf.
      rewrite bodySearch_trace. auto.
  - destruct (get c uri (discoveryOptions f) (world st)) as [[resource|reason] w] eqn:Hg.
    + set (st1 := {| world := w; trace := trace st ++ [EvGet uri (discoveryOptions f)] |}).
      assert (Hi : inspected f uri c None st resource st1).
      { unfold inspected, webClient_get. now erewrite invoke_run by exact Hg. }
      exists [EvGet uri (discoveryOptions f)],
        (match truthy_opt (linkHeaders resource !! "http://www.w3.org/ns/ldp#inbox")
         with true => [] | false => [EvParsedGraph] end).
      rewrite (discover_inspected _ _ _ _ _ _ _ Hi).
      destruct (truthy_opt_cases (linkHeaders resource !! "http://www.w3.org/ns/ldp#inbox"))
        as [(v & Hv & Ht) | Hf].
      * rewrite (if_truthy_taken _ v) by assumption.
        rewrite Hv; simpl; rewrite Ht, ?app_nil_r. auto.
      * rewrite if_truthy_skipped by assumption. rewrite Hf.
        rewrite bodySearch_trace. simpl. rewrite <- app_assoc. auto.
    + exists [EvGet uri (discoveryOptions f)], [].
      rewrite (discover_get_failed _ _ _ _ _ _ Hg). simpl.
      auto.
Qed.

Lemma discover_no_request (f : Copy) uri c pre st :
  requests (trace (snd (discoverInboxUri_of f uri c pre st))) = requests (trace st).
Proof.
  destruct (discover_trace f uri c pre st) as (fetch & parse & -> & -> & Hp).
  destruct pre, Hp as [-> | ->]; count_events.
Qed.
End Steps.

(* ===================================================================== *)
(** ** Discovery                                                          *)
(* ===================================================================== *)

Section Discovery.
Context {W : Type}.
Implicit Types (st : State W) (c : SolidWebClient W) (resource : SolidResponse W).

(** C1 (as amended): in both copies, when the link-header mapping of the
    resource that discovery inspects (passed in, or fetched) holds a
    non-empty value for [http://www.w3.org/ns/ldp#inbox], discoverInboxUri
    resolves to exactly that value, in the state in which the resource was
    obtained, and parsedGraph is not invoked: the number of parses in the
    trace is unchanged. *)
Theorem C1_link_header_wins (f : Copy) uri c pre st resource st1 v :
  inspected f uri c pre st resource st1 ->
  linkHeaders resource !! "http://www.w3.org/ns/ldp#inbox" = Some v ->
  truthy v = true ->
  discoverInboxUri_of f uri c pre st = (Resolved v, st1)
  /\ parses (trace st1) = parses (trace st).
Proof.
  intros Hi Hv Ht. split.
  - rewrite (discover_inspected _ _ _ _ _ _ _ Hi).
    now rewrite (if_truthy_taken _ v).
  - rewrite (inspected_trace _ _ _ _ _ _ _ Hi).
    destruct pre; count_events.
Qed.

(** C2: in both copies, when the inspected resource has no (truthy) inbox
    link header, its body parses to a graph, and the graph's match
    primitive, asked for any subject, the predicate
    [namedNode(http://www.w3.org/ns/ldp#inbox)] and any object, returns a
    non-empty sequence, discoverInboxUri resolves to the object value of the
    first triple of that sequence, after one parse. *)
Theorem C2_first_body_match (f : Copy) uri c pre st resource st1 body w m0 ms :
  inspected f uri c pre st resource st1 ->
  truthy_opt (linkHeaders resource !! "http://www.w3.org/ns/ldp#inbox") = false ->
  parsedGraph resource (world st1) = (Ok body, w) ->
  match_ body None (Some (namedNode (rdf c) "http://www.w3.org/ns/ldp#inbox")) None
    = m0 :: ms ->
  discoverInboxUri_of f uri c pre st =
  (Resolved (value (object m0)),
   {| world := w; trace := trace st1 ++ [EvParsedGraph] |}).
Proof.
  intros Hi Hh Hp Hm.
  rewrite (discover_inspected _ _ _ _ _ _ _ Hi).
  rewrite if_truthy_skipped by assumption.
  rewrite (bodySearch_run _ _ _ _ _ Hp).
  unfold inboxMatches. now rewrite Hm.
Qed.

(** C3: in both copies, discoverInboxUri rejects with the module's own
    error "No inbox uri found for resource." exactly when both lookups
    were made and found nothing: a resource was obtained, it has no (truthy)
    inbox link header, its body parsed, and the match for the inbox
    predicate came back empty.  A failure of the client (a [Thrown] reason)
    is therefore never this error. *)
Theorem C3_no_inbox_error (f : Copy) uri c pre st :
  (exists resource st1 body w,
      inspected f uri c pre st resource st1
      /\ truthy_opt (linkHeaders resource !! "http://www.w3.org/ns/ldp#inbox") = false
      /\ parsedGraph resource (world st1) = (Ok body, w)
      /\ match_ body None
           (Some (namedNode (rdf c) "http://www.w3.org/ns/ldp#inbox")) None = [])
  <->
  fst (discoverInboxUri_of f uri c pre st)
  = Rejected (Error "No inbox uri found for resource.").
Proof.
  split.
  - intros (resource & st1 & body & w & Hi & Hh & Hp & Hm).
    rewrite (discover_inspected _ _ _ _ _ _ _ Hi).
    rewrite if_truthy_skipped by assumption.
    rewrite (bodySearch_run _ _ _ _ _ Hp).
    unfold inboxMatches. now rewrite Hm.
  - intros Hrej.
    assert (Hobt : (exists resource st1, inspected f uri c pre st resource st1)
                   \/ (exists reason, fst (discoverInboxUri_of f uri c pre st)
                                      = Rejected (Thrown reason))).
    { destruct pre as [given|].
      - left. exists given, st. now split.
      - destruct (get c uri (discoveryOptions f) (world st))
          as [[resource|reason] w] eqn:Hg.
        + left. exists resource.
          eexists. unfold inspected, webClient_get.
          now erewrite invoke_run by exact Hg.
        + right. exists reason.
          now rewrite (discover_get_failed _ _ _ _ _ _ Hg). }
    destruct Hobt as [(resource & st1 & Hi) | (reason & Hthrown)];
      [|congruence].
    rewrite (discover_inspected _ _ _ _ _ _ _ Hi) in Hrej.
    destruct (truthy_opt_cases (linkHeaders resource !! "http://www.w3.org/ns/ldp#inbox"))
      as [(v & Hv & Ht) | Hf].
    + rewrite (if_truthy_taken _ v) in Hrej by assumption. discriminate.
    + rewrite if_truthy_skipped in Hrej by assumption.
      destruct (parsedGraph resource (world st1)) as [[body|reason] w] eqn:Hp;
        rewrite (bodySearch_run _ _ _ _ _ Hp) in Hrej; simpl in Hrej;
        [|discriminate].
      exists resource, st1, body, w.
      repeat split; try assumption.
      unfold inboxMatches in Hrej.
      destruct (match_ body None _ None); [reflexivity | discriminate].
Qed.

(** C10: in both copies, when the link-header mapping of the inspected
    resource maps [http://www.w3.org/ns/ldp#inbox] to a falsy value (the
    empty string), discoverInboxUri does not return it: it goes on exactly
    as the body search does (parse the body, then take the first inbox
    triple or reject), with one parse added to the trace.  By
    [discover_without_header] this is the run of a resource whose header is
    absent. *)
Theorem C10_falsy_header_falls_through (f : Copy) uri c pre st resource st1 v :
  inspected f uri c pre st resource st1 ->
  linkHeaders resource !! "http://www.w3.org/ns/ldp#inbox" = Some v ->
  truthy v = false ->
  discoverInboxUri_of f uri c pre st = bodySearch c resource st1
  /\ trace (snd (discoverInboxUri_of f uri c pre st)) = trace st1 ++ [EvParsedGraph]
  /\ parses (trace (snd (discoverInboxUri_of f uri c pre st))) = S (parses (trace st)).
Proof.
  intros Hi Hv Ht.
  assert (Hrun : discoverInboxUri_of f uri c pre st = bodySearch c resource st1).
  { apply discover_without_header; [assumption|]. now rewrite Hv. }
  split; [exact Hrun|].
  rewrite Hrun, bodySearch_trace. split; [reflexivity|].
  rewrite (inspected_trace _ _ _ _ _ _ _ Hi).
  destruct pre; count_events.
Qed.
(** C6: in both copies, a call of discoverInboxUri with a resource passed
    in adds no GET to the trace, and its run does not depend on the
    client's [get] capability at all: any other [get] gives the same run. *)
Theorem C6_prefetched_resource_no_get (f : Copy) uri c resource st :
  gets (trace (snd (discoverInboxUri_of f uri c (Some resource) st))) = gets (trace st)
  /\ forall get',
       discoverInboxUri_of f uri
         {| get := get'; solidRequest := solidRequest c; rdf := rdf c |}
         (Some resource) st
       = discoverInboxUri_of f uri c (Some resource) st.
Proof.
  split.
  - destruct (discover_trace f uri c (Some resource) st)
      as (fetch & parse & -> & -> & [-> | ->]); count_events.
  - intros get'.
    rewrite (discover_inspected f uri _ (Some resource) st resource st) by now split.
    rewrite (discover_inspected f uri c (Some resource) st resource st) by now split.
    reflexivity.
Qed.

(** Without a resource passed in, discovery issues one GET, first, to the
    resource uri, with the options of its copy. *)
Lemma discover_single_get (f : Copy) uri c st :
  exists parse,
    trace (snd (discoverInboxUri_of f uri c None st))
    = trace st ++ EvGet uri (discoveryOptions f) :: parse
    /\ gets parse = 0.
Proof.
  destruct (discover_trace f uri c None st) as (fetch & parse & Ht & -> & Hp).
  exists parse. split; [exact Ht|].
  now destruct Hp as [-> | ->].
Qed.

(** In [src/unnamed/part_000] that GET carries the Accept header. *)
Lemma part000_discovery_accept uri c st :
  exists options parse,
    trace (snd (Notifications.discoverInboxUri uri c None st))
    = trace st ++ EvGet uri (Some options) :: parse
    /\ headers options !! "Accept" = Some Notifications.DEFAULT_ACCEPT.
Proof.
  destruct (discover_single_get Part000 uri c st) as (parse & Ht & _).
  simpl in Ht. eexists _, parse. split; [exact Ht|].
  apply lookup_singleton_eq.
Qed.

(** In [src/src/index.js] it carries no options, hence no header. *)
Lemma index_discovery_no_options uri c st :
  exists parse,
    trace (snd (Index.discoverInboxUri uri c None st))
    = trace st ++ EvGet uri None :: parse.
Proof.
  destruct (discover_single_get IndexJs uri c st) as (parse & Ht & _).
  now exists parse.
Qed.
End Discovery.

(* ===================================================================== *)
(** ** Listing and sending                                                *)
(* ===================================================================== *)

Section ListSend.
Context {W : Type}.
Implicit Types (st : State W) (c : SolidWebClient W) (options : Options W).

(** The first callback of [list] and [send] settles on the resolved inbox. *)
Lemma inboxResolved_run (f : Copy) resourceUri c options st u st1 :
  inboxResolved f resourceUri c options st u st1 ->
  if_truthy (inboxUri options) (fun i => resolve i)
            (discoverInboxUri_of f resourceUri c None) st
  = (Resolved u, st1).
Proof.
  unfold inboxResolved, if_truthy.
  destruct (inboxUri options) as [i|]; [destruct (truthy i)|]; try tauto.
  now intros [-> ->].
Qed.

Lemma inboxResolved_requests (f : Copy) resourceUri c options st u st1 :
  inboxResolved f resourceUri c options st u st1 ->
  requests (trace st1) = requests (trace st).
Proof.
  unfold inboxResolved, if_truthy. intros H.
  assert (Hd : discoverInboxUri_of f resourceUri c None st = (Resolved u, st1)
               -> requests (trace st1) = requests (trace st)).
  { intros Hr. rewrite <- (discover_no_request f resourceUri c None st).
    now rewrite Hr. }
  destruct (inboxUri options) as [i|]; [destruct (truthy i)|]; auto.
  now destruct H as [_ ->].
Qed.

Lemma list_unfold resourceUri options c st :
  webClient options = Some c ->
  Notifications.list resourceUri options st =
  then_ (if_truthy (inboxUri options) (fun i => resolve i)
           (discoverInboxUri_of Part000 resourceUri c None))
        (fun i =>
           let! container :=
             webClient_get c i
               (Some {| headers := {[ "Accept" := Notifications.DEFAULT_ACCEPT ]} |}) in
           resolve (Object_keys (resources container))) st.
Proof. intros Hc. unfold Notifications.list. now rewrite Hc. Qed.

Lemma send_unfold (f : Copy) resourceUri payload options c st :
  webClient options = Some c ->
  send_of f resourceUri payload options st =
  then_ (if_truthy (inboxUri options) (fun i => resolve i)
           (discoverInboxUri_of f resourceUri c None))
        (fun i =>
           webClient_solidRequest c i "POST"
             {| headers :=
                  {[ "Content-Type" :=
                       or_default (contentType options) "application/ld+json" ]} |}
             payload) st.
Proof.
  intros Hc. destruct f; simpl;
    [unfold Notifications.send | unfold Index.send]; now rewrite Hc.
Qed.

(** C4: [list] (part_000) and [send] (both copies), called with options
    that lack a webClient, reject with the error "Web client instance is
    required" and leave the state as it was: nothing is added to the trace
    (no GET, no request, no parse, hence no discovery) and the client's
    state is untouched. *)
Theorem C4_web_client_required (f : Copy) resourceUri payload options st :
  webClient options = None ->
  Notifications.list resourceUri options st
    = (Rejected (Error "Web client instance is required"), st)
  /\ send_of f resourceUri payload options st
    = (Rejected (Error "Web client instance is required"), st).
Proof.
  intros Hc. split.
  - unfold Notifications.list. now rewrite Hc.
  - destruct f; simpl; [unfold Notifications.send | unfold Index.send];
      now rewrite Hc.
Qed.

(** C5 (as amended): [list] (part_000) and [send] (both copies), called
    with a webClient and a non-empty [options.inboxUri], run exactly as the
    inbox GET followed by the key listing, respectively as the POST alone:
    the only entry added to the trace is that GET, respectively that POST,
    to the supplied inbox uri; no discovery GET and no parse appear. *)
Theorem C5_supplied_inbox_skips_discovery (f : Copy) resourceUri payload options c u st :
  webClient options = Some c ->
  inboxUri options = Some u ->
  truthy u = true ->
  Notifications.list resourceUri options st
    = then_ (webClient_get c u
               (Some {| headers :=
                          {[ "Accept" := "application/ld+json;q=0.9,text/turtle;q=0.8" ]} |}))
            (fun container => resolve (Object_keys (resources container))) st
  /\ trace (snd (Notifications.list resourceUri options st))
     = trace st ++
       [EvGet u (Some {| headers :=
                           {[ "Accept" := "application/ld+json;q=0.9,text/turtle;q=0.8" ]} |})]
  /\ send_of f resourceUri payload options st
     = webClient_solidRequest c u "POST"
         {| headers :=
              {[ "Content-Type" :=
                   or_default (contentType options) "application/ld+json" ]} |}
         payload st
  /\ trace (snd (send_of f resourceUri payload options st))
     = trace st ++
       [EvSolidRequest u "POST"
          {| headers :=
               {[ "Content-Type" :=
                    or_default (contentType options) "application/ld+json" ]} |}
          payload].
Proof.
  intros Hc Hu Ht.
  assert (Hl : Notifications.list resourceUri options st
     = then_ (webClient_get c u
                (Some {| headers :=
                           {[ "Accept" := "application/ld+json;q=0.9,text/turtle;q=0.8" ]} |}))
             (fun container => resolve (Object_keys (resources container))) st).
  { rewrite (list_unfold _ _ c) by assumption.
    rewrite (if_truthy_taken _ u) by assumption. reflexivity. }
  assert (Hs : send_of f resourceUri payload options st
     = webClient_solidRequest c u "POST"
         {| headers :=
              {[ "Content-Type" :=
                   or_default (contentType options) "application/ld+json" ]} |}
         payload st).
  { rewrite (send_unfold _ _ _ _ c) by assumption.
    rewrite (if_truthy_taken _ u) by assumption. reflexivity. }
  repeat split; try assumption.
  - rewrite Hl. unfold then_, webClient_get, invoke.
    destruct (get c u _ (world st)) as [[container|reason] w]; reflexivity.
  - rewrite Hs. apply invoke_trace.
Qed.

(** C7: [list] (part_000), called with a webClient and an inbox uri that
    resolves (a non-empty [options.inboxUri], or else the uri discovery
    resolves to), issues next a GET to that inbox uri with the header
    [Accept: application/ld+json;q=0.9,text/turtle;q=0.8], and resolves to
    the keys of the [resources] mapping of the container the GET answers
    with (a failed GET is passed on).  When discovery ran, its own GET
    carried the same options. *)
Theorem C7_list_gets_inbox resourceUri options c st u st1 r w :
  webClient options = Some c ->
  inboxResolved Part000 resourceUri c options st u st1 ->
  get c u (Some {| headers :=
                     {[ "Accept" := "application/ld+json;q=0.9,text/turtle;q=0.8" ]} |})
      (world st1) = (r, w) ->
  Notifications.list resourceUri options st
  = (match r with
     | Ok container => Resolved (Object_keys (resources container))
     | Raise reason => Rejected (Thrown reason)
     end,
     {| world := w;
        trace := trace st1 ++
          [EvGet u (Some {| headers :=
                              {[ "Accept" := "application/ld+json;q=0.9,text/turtle;q=0.8" ]} |})] |})
  /\ (truthy_opt (inboxUri options) = false ->
      exists parse,
        trace st1 = trace st ++
          EvGet resourceUri
            (Some {| headers :=
                       {[ "Accept" := "application/ld+json;q=0.9,text/turtle;q=0.8" ]} |})
          :: parse).
Proof.
  intros Hc Hres Hg. split.
  - rewrite (list_unfold _ _ c) by assumption.
    rewrite (then_resolved _ _ _ _ _ (inboxResolved_run _ _ _ _ _ _ _ Hres)).
    unfold then_, webClient_get.
    change Notifications.DEFAULT_ACCEPT
      with "application/ld+json;q=0.9,text/turtle;q=0.8".
    rewrite (invoke_run _ _ _ _ _ Hg).
    now destruct r.
  - intros Hf. unfold inboxResolved in Hres.
    rewrite if_truthy_skipped in Hres by assumption.
    destruct (discover_single_get Part000 resourceUri c st) as (parse & Htr & _).
    rewrite Hres in Htr. now exists parse.
Qed.

(** C8 (as amended): [send] (both copies), called with a webClient and an
    inbox uri that resolves, issues next one request
    [solidRequest(inboxUri, 'POST', { headers: { 'Content-Type': ct } }, payload)]
    and settles as that request does, where [ct] is [options.contentType]
    when that is a non-empty string and [application/ld+json] when it is
    absent or empty.  It is the only request of the call. *)
Theorem C8_send_posts_once (f : Copy) resourceUri payload options c st u st1 ct r w :
  webClient options = Some c ->
  inboxResolved f resourceUri c options st u st1 ->
  ct = match contentType options with
       | Some t => if truthy t then t else "application/ld+json"
       | None => "application/ld+json"
       end ->
  solidRequest c u "POST" {| headers := {[ "Content-Type" := ct ]} |} payload (world st1)
    = (r, w) ->
  send_of f resourceUri payload options st
  = (settle r,
     {| world := w;
        trace := trace st1 ++
          [EvSolidRequest u "POST" {| headers := {[ "Content-Type" := ct ]} |} payload] |})
  /\ requests (trace (snd (send_of f resourceUri payload options st)))
     = S (requests (trace st)).
Proof.
  intros Hc Hres -> Hp.
  assert (Hrun : send_of f resourceUri payload options st
    = (settle r,
       {| world := w;
          trace := trace st1 ++
            [EvSolidRequest u "POST"
               {| headers :=
                    {[ "Content-Type" :=
                         match contentType options with
                         | Some t => if truthy t then t else "application/ld+json"
                         | None => "application/ld+json"
                         end ]} |} payload] |})).
  { rewrite (send_unfold _ _ _ _ c) by assumption.
    rewrite (then_resolved _ _ _ _ _ (inboxResolved_run _ _ _ _ _ _ _ Hres)).
    unfold webClient_solidRequest.
    exact (invoke_run _ _ _ _ _ Hp). }
  split; [exact Hrun|].
  rewrite Hrun. simpl.
  rewrite requests_app, (inboxResolved_requests _ _ _ _ _ _ _ Hres).
  unfold requests at 2. simpl. lia.
Qed.
End ListSend.

(* ===================================================================== *)
(** ** Runs on the test client                                            *)
(* ===================================================================== *)

Section Runs.
Import Fixture.

(** A fetched resource with a link header: part_000 resolves to its value
    after the single GET, without a parse. *)
Lemma C1_link_header_wins_witness :
  discoverInboxUri_of Part000 doc (client linked) None start
  = (Resolved "https://example.org/inbox",
     {| world := 1; trace := [EvGet doc accept] |})
  /\ parses [EvGet doc accept] = parses [].
Proof.
  apply (C1_link_header_wins Part000 doc (client linked) None start linked
           {| world := 1; trace := [EvGet doc accept] |} "https://example.org/inbox");
    reflexivity.
Defined.

(** C1 read for any value, empty ones included, fails on the empty string:
    the mapping holds the value [""] for the inbox relation, yet discovery
    parses the body and resolves to the inbox named there. *)
Lemma C1_empty_header_counterexample :
  linkHeaders blankLinked !! "http://www.w3.org/ns/ldp#inbox" = Some ""
  /\ outcome_of (Notifications.discoverInboxUri doc (client blankLinked)
                   (Some blankLinked) start)
     = Resolved "https://example.org/inbox-a"
  /\ outcome_of (Notifications.discoverInboxUri doc (client blankLinked)
                   (Some blankLinked) start)
     <> Resolved ""
  /\ trace_of (Notifications.discoverInboxUri doc (client blankLinked)
                 (Some blankLinked) start)
     = [EvParsedGraph].
Proof. repeat split; try reflexivity. vm_compute. discriminate. Qed.

(** A resource passed in, no link header, two inbox triples in the body:
    index.js resolves to the object of the first one returned by match. *)
Lemma C2_first_body_match_witness :
  discoverInboxUri_of IndexJs doc (client described) (Some described) start
  = (Resolved "https://example.org/inbox-a",
     {| world := 1; trace := [EvParsedGraph] |}).
Proof.
  apply (C2_first_body_match IndexJs doc (client described) (Some described) start
           described start
           (graphOf [ mkTriple (mkTerm doc) dc_title (mkTerm "A document");
                      mkTriple (mkTerm doc) ldp_inbox (mkTerm "https://example.org/inbox-a");
                      mkTriple (mkTerm doc) ldp_inbox (mkTerm "https://example.org/inbox-b") ])
           1
           (mkTriple (mkTerm doc) ldp_inbox (mkTerm "https://example.org/inbox-a"))
           [ mkTriple (mkTerm doc) ldp_inbox (mkTerm "https://example.org/inbox-b") ]).
  - split; reflexivity.
  - reflexivity.
  - reflexivity.
  - reflexivity.
Defined.

(** A fetched resource with neither header nor inbox triple. *)
Lemma C3_no_inbox_error_witness :
  fst (discoverInboxUri_of Part000 doc (client bare) None start)
  = Rejected (Error "No inbox uri found for resource.").
Proof.
  apply (proj1 (C3_no_inbox_error Part000 doc (client bare) None start)).
  exists bare, {| world := 1; trace := [EvGet doc accept] |},
    (graphOf [ mkTriple (mkTerm doc) dc_title (mkTerm "A document") ]), 2.
  repeat split; reflexivity.
Defined.

(** Options without a client: nothing happens but the rejection. *)
Lemma C4_web_client_required_witness :
  Notifications.list doc (mkOptions None (Some inbox) None) start
    = (Rejected (Error "Web client instance is required"), start)
  /\ send_of IndexJs doc "{}" (mkOptions None (Some inbox) None) start
    = (Rejected (Error "Web client instance is required"), start).
Proof.
  apply (C4_web_client_required IndexJs doc "{}" (mkOptions None (Some inbox) None) start).
  reflexivity.
Defined.

(** C5 read for any value, empty ones included, fails on the empty string:
    [options.inboxUri] is set, yet [list] and [send] first issue the
    discovery GET to the resource, and the inbox request goes to the
    discovered uri. *)
Lemma C5_empty_inboxUri_counterexample :
  inboxUri (mkOptions (Some (client linked)) (Some "") None) = Some ""
  /\ trace_of (Notifications.list doc
                 (mkOptions (Some (client linked)) (Some "") None) start)
     = [EvGet doc accept; EvGet "https://example.org/inbox" accept]
  /\ trace_of (Notifications.send doc "{}"
                 (mkOptions (Some (client linked)) (Some "") None) start)
     = [EvGet doc accept;
        EvSolidRequest "https://example.org/inbox" "POST"
          {| headers := {[ "Content-Type" := "application/ld+json" ]} |} "{}"].
Proof. repeat split; reflexivity. Qed.

Lemma C5_supplied_inbox_skips_discovery_witness :
  trace (snd (Notifications.list doc
                (mkOptions (Some (client bare)) (Some inbox) None) start))
    = [EvGet inbox accept]
  /\ trace (snd (send_of Part000 doc "{}"
                   (mkOptions (Some (client bare)) (Some inbox) None) start))
    = [EvSolidRequest inbox "POST"
         {| headers := {[ "Content-Type" := "application/ld+json" ]} |} "{}"].
Proof.
  pose proof (C5_supplied_inbox_skips_discovery Part000 doc "{}"
                (mkOptions (Some (client bare)) (Some inbox) None)
                (client bare) inbox start eq_refl eq_refl eq_refl)
    as (_ & Hlist & _ & Hsend).
  split; [exact Hlist | exact Hsend].
Defined.

(** Discovery by link header, then the listing of the inbox. *)
Lemma C7_list_gets_inbox_witness :
  Notifications.list doc (mkOptions (Some (client linked)) None None) start
  = (Resolved ["https://example.org/inbox/1"; "https://example.org/inbox/2"],
     {| world := 2; trace := [EvGet doc accept; EvGet inbox accept] |}).
Proof.
  refine (proj1 (C7_list_gets_inbox doc (mkOptions (Some (client linked)) None None)
                   (client linked) start inbox
                   {| world := 1; trace := [EvGet doc accept] |}
                   (Ok container) 2 _ _ _));
    reflexivity.
Defined.

(** C8 read for any value, empty ones included, fails on the empty string:
    [options.contentType] is given, yet the POST carries the default
    content type. *)
Lemma C8_empty_contentType_counterexample :
  contentType (mkOptions (Some (client linked)) (Some inbox) (Some "")) = Some ""
  /\ trace_of (Notifications.send doc "{}"
                 (mkOptions (Some (client linked)) (Some inbox) (Some "")) start)
     = [EvSolidRequest inbox "POST"
          {| headers := {[ "Content-Type" := "application/ld+json" ]} |} "{}"]
  /\ ({[ "Content-Type" := "application/ld+json" ]} : gmap string string) !! "Content-Type"
     <> Some "".
Proof. repeat split; try reflexivity. vm_compute. discriminate. Qed.

(** Discovery by link header in index.js, then a Turtle notification. *)
Lemma C8_send_posts_once_witness :
  send_of IndexJs doc "<> a <#Note> ."
    (mkOptions (Some (client linked)) None (Some "text/turtle")) start
  = (Resolved created,
     {| world := 2;
        trace := [EvGet doc None;
                  EvSolidRequest inbox "POST"
                    {| headers := {[ "Content-Type" := "text/turtle" ]} |}
                    "<> a <#Note> ."] |})
  /\ requests (trace (snd (send_of IndexJs doc "<> a <#Note> ."
       (mkOptions (Some (client linked)) None (Some "text/turtle")) start))) = 1.
Proof.
  apply (C8_send_posts_once IndexJs doc "<> a <#Note> ."
           (mkOptions (Some (client linked)) None (Some "text/turtle"))
           (client linked) start inbox
           {| world := 1; trace := [EvGet doc None] |}
           "text/turtle" (Ok created) 2);
    reflexivity.
Defined.

(** C9 at a concrete call: without a resource passed in, the
    discoverInboxUri of [src/src/index.js] issues its GET with no options
    at all, hence without the Accept header, where the same call of
    [src/unnamed/part_000] sends it. *)
Theorem C9_index_get_without_accept :
  trace_of (Index.discoverInboxUri doc (client linked) None start)
    = [EvGet doc None]
  /\ trace_of (Notifications.discoverInboxUri doc (client linked) None start)
    = [EvGet doc
         (Some {| headers :=
                    {[ "Accept" := "application/ld+json;q=0.9,text/turtle;q=0.8" ]} |})].
Proof. split; reflexivity. Qed.

(** A resource passed in with an empty link header value. *)
Lemma C10_falsy_header_falls_through_witness :
  discoverInboxUri_of Part000 doc (client blankLinked) (Some blankLinked) start
    = bodySearch (client blankLinked) blankLinked start
  /\ trace (snd (discoverInboxUri_of Part000 doc (client blankLinked)
                   (Some blankLinked) start))
     = [EvParsedGraph]
  /\ parses (trace (snd (discoverInboxUri_of Part000 doc (client blankLinked)
                           (Some blankLinked) start)))
     = 1.
Proof.
  apply (C10_falsy_header_falls_through Part000 doc (client blankLinked)
           (Some blankLinked) start blankLinked start "").
  - split; reflexivity.
  - reflexivity.
  - reflexivity.
Defined.
End Runs.


(* ===================================================================== *)
(** ** Failures of the client, and what each operation adds to the trace  *)
(* ===================================================================== *)

Lemma or_default_truthy (o : option string) (d : string) :
  truthy d = true -> truthy (or_default o d) = true.
Proof.
  intros Hd. unfold or_default, if_truthy.
  destruct o as [s|]; [destruct (truthy s) eqn:Hs|]; assumption.
Qed.

Section Effects.
Context {W : Type}.
Implicit Types (st : State W) (c : SolidWebClient W) (options : Options W).

(** The first callback of [list] and [send]: the supplied inbox uri when it
    is truthy, the run of discovery otherwise. *)
Lemma resolution_cases (f : Copy) resourceUri c options st :
  (exists u, inboxUri options = Some u /\ truthy u = true
             /\ if_truthy (inboxUri options) (fun i => resolve i)
                  (discoverInboxUri_of f resourceUri c None) st = (Resolved u, st))
  \/ (truthy_opt (inboxUri options) = false
      /\ if_truthy (inboxUri options) (fun i => resolve i)
           (discoverInboxUri_of f resourceUri c None) st
         = discoverInboxUri_of f resourceUri c None st).
Proof.
  destruct (truthy_opt_cases (inboxUri options)) as [(u & Hu & Ht) | Hf].
  - left. exists u. repeat split; try assumption.
    now rewrite (if_truthy_taken _ u).
  - right. split; [assumption|]. now rewrite if_truthy_skipped.
Qed.

(** X1: in both copies, when the GET of discovery fails, discoverInboxUri
    rejects with the client's reason as it is; the GET is the only entry
    added to the trace, so the body is never parsed. *)
Theorem discover_get_failure_passed_on (f : Copy) uri c st reason w :
  get c uri (discoveryOptions f) (world st) = (Raise reason, w) ->
  discoverInboxUri_of f uri c None st
  = (Rejected (Thrown reason),
     {| world := w; trace := trace st ++ [EvGet uri (discoveryOptions f)] |})
  /\ parses (trace (snd (discoverInboxUri_of f uri c None st))) = parses (trace st).
Proof.
  intros Hg. rewrite (discover_get_failed _ _ _ _ _ _ Hg).
  split; [reflexivity|]. simpl. count_events.
Qed.

(** X2: in both copies, when the inspected resource has no truthy inbox
    link header and its body fails to parse, discoverInboxUri rejects with
    the parser's reason as it is, not with its own "No inbox uri found"
    error. *)
Theorem discover_parse_failure_passed_on (f : Copy) uri c pre st resource st1 reason w :
  inspected f uri c pre st resource st1 ->
  truthy_opt (linkHeaders resource !! "http://www.w3.org/ns/ldp#inbox") = false ->
  parsedGraph resource (world st1) = (Raise reason, w) ->
  discoverInboxUri_of f uri c pre st
  = (Rejected (Thrown reason),
     {| world := w; trace := trace st1 ++ [EvParsedGraph] |}).
Proof.
  intros Hi Hh Hp.
  rewrite (discover_without_header _ _ _ _ _ _ _ Hi Hh).
  now rewrite (bodySearch_run _ _ _ _ _ Hp).
Qed.

(** X3: in both copies, every run of discoverInboxUri, whatever the client
    answers, only appends to the trace, and appends at most one GET, at most
    one parse and no request. *)
Theorem discover_effects_bounded (f : Copy) uri c pre st :
  exists evs,
    trace (snd (discoverInboxUri_of f uri c pre st)) = trace st ++ evs
    /\ gets evs <= 1 /\ parses evs <= 1 /\ requests evs = 0.
Proof.
  destruct (discover_trace f uri c pre st) as (fetch & parse & Ht & -> & Hp).
  eexists. split; [exact Ht|].
  destruct pre, Hp as [-> | ->]; repeat split; count_events.
Qed.
End Effects.

(** Without a client [list] and [send] are the rejection and nothing else. *)
Lemma no_client_run {W : Type} (f : Copy) resourceUri payload
    (options : Options W) (st : State W) :
  webClient options = None ->
  Notifications.list resourceUri options st
    = (Rejected (Error "Web client instance is required"), st)
  /\ send_of f resourceUri payload options st
    = (Rejected (Error "Web client instance is required"), st).
Proof.
  intros Hc. split.
  - unfold Notifications.list. now rewrite Hc.
  - destruct f; simpl; [unfold Notifications.send | unfold Index.send];
      now rewrite Hc.
Qed.

Section Pipelines.
Context {W : Type}.
Implicit Types (st : State W) (c : SolidWebClient W) (options : Options W).

(** X4: [list] (part_000), called with a webClient and no truthy
    [options.inboxUri], rejects as discovery does when discovery rejects, in
    the state discovery left: the inbox GET is not issued. *)
Theorem list_stops_when_discovery_fails resourceUri options c st e st1 :
  webClient options = Some c ->
  truthy_opt (inboxUri options) = false ->
  Notifications.discoverInboxUri resourceUri c None st = (Rejected e, st1) ->
  Notifications.list resourceUri options st = (Rejected e, st1).
Proof.
  intros Hc Hf Hd.
  rewrite (list_unfold _ _ c) by assumption.
  apply then_rejected. now rewrite if_truthy_skipped.
Qed.

(** X5: [send] (both copies), called with a webClient and no truthy
    [options.inboxUri], rejects as discovery does when discovery rejects, in
    the state discovery left: no request is issued, the payload is not
    posted anywhere. *)
Theorem send_stops_when_discovery_fails (f : Copy) resourceUri payload options c st e st1 :
  webClient options = Some c ->
  truthy_opt (inboxUri options) = false ->
  discoverInboxUri_of f resourceUri c None st = (Rejected e, st1) ->
  send_of f resourceUri payload options st = (Rejected e, st1)
  /\ requests (trace st1) = requests (trace st).
Proof.
  intros Hc Hf Hd. split.
  - rewrite (send_unfold _ _ _ _ c) by assumption.
    apply then_rejected. now rewrite if_truthy_skipped.
  - rewrite <- (discover_no_request f resourceUri c None st). now rewrite Hd.
Qed.

(** X6: every run of [list] (part_000), whatever the options and the
    client's answers, only appends to the trace; it appends at most two GETs
    and one parse and never a request, every GET it issues carries the
    options [{ headers: { Accept: application/ld+json;q=0.9,text/turtle;q=0.8 } }],
    and it resolves only after at least one GET. *)
Theorem list_effects resourceUri options st :
  exists evs,
    trace (snd (Notifications.list resourceUri options st)) = trace st ++ evs
    /\ gets evs <= 2 /\ parses evs <= 1 /\ requests evs = 0
    /\ Forall negotiated evs
    /\ (forall uris, fst (Notifications.list resourceUri options st) = Resolved uris ->
        1 <= gets evs).
Proof.
  destruct (webClient options) as [c|] eqn:Hc.
  2:{ exists []. unfold Notifications.list. rewrite Hc. simpl.
      rewrite app_nil_r. repeat split; try (unfold gets, parses, requests; simpl; lia).
      - constructor.
      - discriminate. }
  rewrite (list_unfold _ _ c) by assumption.
  change Notifications.DEFAULT_ACCEPT
    with "application/ld+json;q=0.9,text/turtle;q=0.8".
  set (accept :=
         Some {| headers := {[ "Accept" := "application/ld+json;q=0.9,text/turtle;q=0.8" ]} |}).
  assert (Hget : forall u st0,
             trace (snd (then_ (webClient_get c u accept)
                           (fun container => resolve (Object_keys (resources container)))
                           st0))
             = trace st0 ++ [EvGet u accept]).
  { intros u st0. unfold then_, webClient_get, invoke.
    destruct (get c u accept (world st0)) as [[container|reason] w]; reflexivity. }
  destruct (resolution_cases Part000 resourceUri c options st)
    as [(u & Hu & Ht & Hrun) | (Hf & Hrun)].
  - rewrite (then_resolved _ _ _ _ _ Hrun), Hget.
    exists [EvGet u accept].
    repeat split; try (unfold gets, parses, requests; simpl; lia).
    repeat constructor.
  - destruct (discover_trace Part000 resourceUri c None st)
      as (fetch & parse & Htr & -> & Hp).
    destruct (discoverInboxUri_of Part000 resourceUri c None st) as [[u|e] st1] eqn:Hd;
      simpl in Htr.
    + rewrite (then_resolved _ _ _ _ _ Hrun), Hget, Htr.
      exists ([EvGet resourceUri accept] ++ parse ++ [EvGet u accept]).
      rewrite <- !app_assoc.
      destruct Hp as [-> | ->]; repeat split;
        try (unfold gets, parses, requests; simpl; lia);
        repeat constructor.
    + rewrite (then_rejected _ _ _ _ _ Hrun). simpl. rewrite Htr.
      exists ([EvGet resourceUri accept] ++ parse).
      destruct Hp as [-> | ->]; repeat split;
        try (unfold gets, parses, requests; simpl; lia);
        try discriminate; repeat constructor.
Qed.

(** X7: every run of [send] (both copies), whatever the options and the
    client's answers, only appends to the trace; it appends at most one GET,
    one parse and one request; the request is a POST whose only header is a
    non-empty Content-Type; and [send] resolves only when that one request
    was issued. *)
Theorem send_effects (f : Copy) resourceUri payload options st :
  exists evs,
    trace (snd (send_of f resourceUri payload options st)) = trace st ++ evs
    /\ gets evs <= 1 /\ parses evs <= 1 /\ requests evs <= 1
    /\ Forall typed_post evs
    /\ (forall response,
          fst (send_of f resourceUri payload options st) = Resolved response ->
          requests evs = 1).
Proof.
  destruct (webClient options) as [c|] eqn:Hc.
  2:{ exists [].
      destruct (no_client_run f resourceUri payload options st Hc) as [_ ->].
      simpl. rewrite app_nil_r.
      repeat split; try (unfold gets, parses, requests; simpl; lia).
      - constructor.
      - discriminate. }
  rewrite (send_unfold _ _ _ _ c) by assumption.
  set (post := {| headers :=
                    {[ "Content-Type" :=
                         or_default (contentType options) "application/ld+json" ]} |}).
  assert (Htyped : forall u, typed_post (EvSolidRequest u "POST" post payload)).
  { intros u. split; [reflexivity|]. eexists. split; [reflexivity|].
    now apply or_default_truthy. }
  destruct (resolution_cases f resourceUri c options st)
    as [(u & Hu & Ht & Hrun) | (Hf & Hrun)].
  - rewrite (then_resolved _ _ _ _ _ Hrun).
    unfold webClient_solidRequest. rewrite invoke_trace.
    exists [EvSolidRequest u "POST" post payload].
    repeat split; try (unfold gets, parses, requests; simpl; lia).
    constructor; [apply Htyped | constructor].
  - destruct (discover_trace f resourceUri c None st)
      as (fetch & parse & Htr & -> & Hp).
    destruct (discoverInboxUri_of f resourceUri c None st) as [[u|e] st1] eqn:Hd;
      simpl in Htr.
    + rewrite (then_resolved _ _ _ _ _ Hrun).
      unfold webClient_solidRequest. rewrite invoke_trace, Htr.
      exists ([EvGet resourceUri (discoveryOptions f)] ++ parse
              ++ [EvSolidRequest u "POST" post payload]).
      rewrite <- !app_assoc.
      destruct Hp as [-> | ->]; repeat split;
        try (unfold gets, parses, requests; simpl; lia);
        repeat (constructor; try apply Htyped; try exact I).
    + rewrite (then_rejected _ _ _ _ _ Hrun). simpl. rewrite Htr.
      exists ([EvGet resourceUri (discoveryOptions f)] ++ parse).
      destruct Hp as [-> | ->]; repeat split;
        try (unfold gets, parses, requests; simpl; lia);
        try discriminate; repeat (constructor; try exact I).
Qed.
End Pipelines.

Section Composition.
Context {W : Type}.
Implicit Types (st : State W) (c : SolidWebClient W) (options : Options W).

(** The only error of its own that discovery rejects with. *)
Lemma discover_own_error (f : Copy) uri c pre st m :
  fst (discoverInboxUri_of f uri c pre st) = Rejected (Error m) ->
  m = "No inbox uri found for resource.".
Proof.
  intros Hrej.
  assert (Hrun : forall resource st1,
             inspected f uri c pre st resource st1 ->
             m = "No inbox uri found for resource.").
  { intros resource st1 Hi.
    rewrite (discover_inspected _ _ _ _ _ _ _ Hi) in Hrej.
    destruct (truthy_opt_cases (linkHeaders resource !! "http://www.w3.org/ns/ldp#inbox"))
      as [(v & Hv & Ht) | Hf].
    - rewrite (if_truthy_taken _ v) in Hrej by assumption. discriminate.
    - rewrite if_truthy_skipped in Hrej by assumption.
      destruct (parsedGraph resource (world st1)) as [[body|reason] w] eqn:Hp;
        rewrite (bodySearch_run _ _ _ _ _ Hp) in Hrej; simpl in Hrej;
        [|discriminate].
      destruct (inboxMatches c body); [|discriminate].
      now injection Hrej as <-. }
  destruct pre as [given|].
  - apply (Hrun given st). now split.
  - destruct (get c uri (discoveryOptions f) (world st)) as [[resource|reason] w] eqn:Hg.
    + eapply (Hrun resource). unfold inspected, webClient_get.
      now erewrite invoke_run by exact Hg.
    + rewrite (discover_get_failed _ _ _ _ _ _ Hg) in Hrej. discriminate.
Qed.

(** An error of the module's own that comes out of [p.then(k)] was made
    by [p] when [k] only settles as the client does. *)
Lemma then_own_error {A B : Type} (p : Promise W A) (k : A -> Promise W B) st m :
  (forall a st1 m', fst (k a st1) <> Rejected (Error m')) ->
  fst (then_ p k st) = Rejected (Error m) ->
  fst (p st) = Rejected (Error m).
Proof.
  intros Hk. unfold then_.
  destruct (p st) as [[a|e] st1]; simpl.
  - intros H. now apply Hk in H.
  - intros H. now injection H as ->.
Qed.

Lemma settle_no_own_error {A : Type} (r : Reply A) m : settle r <> Rejected (Error m).
Proof. destruct r; discriminate. Qed.

(** X8: when [list] (part_000) or [send] (either copy) rejects with an
    error made by the module itself, it is one of two: "Web client instance
    is required", and then the options hold no webClient; or "No inbox uri
    found for resource.", and then a webClient was given and
    [options.inboxUri] was missing or empty, so discovery ran.  Every other
    rejection is a failure of the client, passed on. *)
Theorem own_errors_classified (f : Copy) resourceUri payload options st m :
  fst (Notifications.list resourceUri options st) = Rejected (Error m)
  \/ fst (send_of f resourceUri payload options st) = Rejected (Error m) ->
  (m = "Web client instance is required" /\ webClient options = None)
  \/ (m = "No inbox uri found for resource."
      /\ webClient options <> None
      /\ truthy_opt (inboxUri options) = false).
Proof.
  intros Hrej.
  destruct (webClient options) as [c|] eqn:Hc.
  - right.
    assert (Hres : forall g : Copy,
               fst (if_truthy (inboxUri options) (fun i => resolve i)
                      (discoverInboxUri_of g resourceUri c None) st)
               = Rejected (Error m) ->
               m = "No inbox uri found for resource."
               /\ truthy_opt (inboxUri options) = false).
    { intros g Hfail.
      destruct (resolution_cases g resourceUri c options st)
        as [(u & Hu & Ht & Hrun) | (Hf & Hrun)]; rewrite Hrun in Hfail.
      - discriminate.
      - split; [|assumption].
        exact (discover_own_error g resourceUri c None st m Hfail). }
    assert (Hm : m = "No inbox uri found for resource."
                 /\ truthy_opt (inboxUri options) = false).
    { destruct Hrej as [Hl | Hs].
      - apply (Hres Part000).
        rewrite (list_unfold _ _ c) in Hl by assumption.
        apply then_own_error in Hl; [exact Hl|].
        intros u st1 m'. unfold then_, webClient_get, invoke.
        destruct (get c u _ (world st1)) as [[container|reason] w]; discriminate.
      - apply (Hres f).
        rewrite (send_unfold _ _ _ _ c) in Hs by assumption.
        apply then_own_error in Hs; [exact Hs|].
        intros u st1 m'. unfold webClient_solidRequest, invoke.
        destruct (solidRequest c u _ _ _ (world st1)) as [r w]. simpl.
        apply settle_no_own_error. }
    destruct Hm as [-> Hf]. repeat split; [discriminate | assumption].
  - left. split; [|reflexivity].
    destruct (no_client_run f resourceUri payload options st Hc) as [Hl Hs].
    rewrite Hl, Hs in Hrej. simpl in Hrej.
    destruct Hrej as [H | H]; now injection H as <-.
Qed.

(** X9: [send] (both copies) on a resource whose inbox is discovered is
    discovery followed by [send] with the discovered uri supplied as
    [options.inboxUri], provided the discovered uri is not empty: a caller
    may discover once and pass the uri on. *)
Theorem send_reuses_discovered_inbox (f : Copy) resourceUri other payload options c st u st1 :
  webClient options = Some c ->
  truthy_opt (inboxUri options) = false ->
  discoverInboxUri_of f resourceUri c None st = (Resolved u, st1) ->
  truthy u = true ->
  send_of f resourceUri payload options st
  = send_of f other payload
      {| webClient := Some c; inboxUri := Some u; contentType := contentType options |}
      st1.
Proof.
  intros Hc Hf Hd Ht.
  rewrite (send_unfold _ _ _ _ c) by assumption.
  rewrite (send_unfold _ _ _ _ c) by reflexivity.
  simpl. rewrite if_truthy_skipped by assumption.
  rewrite (then_resolved _ _ _ _ _ Hd).
  unfold if_truthy. rewrite Ht. reflexivity.
Qed.

(** X10: [list] (part_000) on a resource whose inbox is discovered is
    discovery followed by [list] with the discovered uri supplied as
    [options.inboxUri], provided the discovered uri is not empty. *)
Theorem list_reuses_discovered_inbox resourceUri other options c st u st1 :
  webClient options = Some c ->
  truthy_opt (inboxUri options) = false ->
  Notifications.discoverInboxUri resourceUri c None st = (Resolved u, st1) ->
  truthy u = true ->
  Notifications.list resourceUri options st
  = Notifications.list other
      {| webClient := Some c; inboxUri := Some u; contentType := contentType options |}
      st1.
Proof.
  intros Hc Hf Hd Ht.
  rewrite (list_unfold _ _ c) by assumption.
  rewrite (list_unfold _ _ c) by reflexivity.
  simpl. rewrite if_truthy_skipped by assumption.
  rewrite (then_resolved _ _ _ _ _ Hd).
  unfold if_truthy. rewrite Ht. reflexivity.
Qed.

(** X11: the two copies of discoverInboxUri settle alike and leave the
    client in the same state whenever the client answers the GET of the
    resource the same with and without the Accept header (with a resource
    passed in, always): they differ in the header they send and in nothing
    else. *)
Theorem copies_agree_on_discovery uri c pre st :
  (pre = None ->
   get c uri None (world st)
   = get c uri
       (Some {| headers := {[ "Accept" := "application/ld+json;q=0.9,text/turtle;q=0.8" ]} |})
       (world st)) ->
  fst (Index.discoverInboxUri uri c pre st)
  = fst (Notifications.discoverInboxUri uri c pre st)
  /\ world (snd (Index.discoverInboxUri uri c pre st))
     = world (snd (Notifications.discoverInboxUri uri c pre st)).
Proof.
  intros Hsame.
  change (@Index.discoverInboxUri W) with (@discoverInboxUri_of W IndexJs).
  change (@Notifications.discoverInboxUri W) with (@discoverInboxUri_of W Part000).
  destruct pre as [given|].
  - rewrite (discover_inspected IndexJs uri c (Some given) st given st) by now split.
    rewrite (discover_inspected Part000 uri c (Some given) st given st) by now split.
    split; reflexivity.
  - specialize (Hsame eq_refl).
    destruct (get c uri None (world st)) as [[resource|reason] w] eqn:Hg.
    + assert (Hi : inspected IndexJs uri c None st resource
                     {| world := w; trace := trace st ++ [EvGet uri None] |}).
      { unfold inspected, webClient_get. now erewrite invoke_run by exact Hg. }
      assert (Hp : inspected Part000 uri c None st resource
                     {| world := w;
                        trace := trace st ++ [EvGet uri (discoveryOptions Part000)] |}).
      { unfold inspected, webClient_get. simpl.
        now erewrite invoke_run by (symmetry; exact Hsame). }
      rewrite (discover_inspected _ _ _ _ _ _ _ Hi).
      rewrite (discover_inspected _ _ _ _ _ _ _ Hp).
      destruct (truthy_opt_cases (linkHeaders resource !! "http://www.w3.org/ns/ldp#inbox"))
        as [(v & Hv & Ht) | Hf].
      * rewrite !(if_truthy_taken _ v) by assumption. split; reflexivity.
      * rewrite !if_truthy_skipped by assumption.
        destruct (parsedGraph resource w) as [r w'] eqn:Hparse.
        rewrite (bodySearch_run c resource _ r w') by exact Hparse.
        rewrite (bodySearch_run c resource _ r w') by exact Hparse.
        split; reflexivity.
    + rewrite (discover_get_failed IndexJs _ _ _ _ _ Hg).
      rewrite (discover_get_failed Part000 uri c st reason w) by (symmetry; exact Hsame).
      split; reflexivity.
Qed.

(** X12: with a resource passed in, discoverInboxUri does not look at its
    uri argument, and the two copies run alike, trace included: the inbox
    found is that of the resource passed in, whatever uri is named. *)
Theorem prefetched_resource_decides (f g : Copy) uri uri' c resource st :
  discoverInboxUri_of f uri c (Some resource) st
  = discoverInboxUri_of g uri' c (Some resource) st.
Proof.
  rewrite (discover_inspected f uri c (Some resource) st resource st) by now split.
  now rewrite (discover_inspected g uri' c (Some resource) st resource st) by now split.
Qed.
End Composition.

(* ===================================================================== *)
(** ** Further runs on the test clients                                   *)
(* ===================================================================== *)

Section FurtherRuns.
Import Fixture.

(** A resource the server does not have: the 404 comes out as it is. *)
Lemma discover_get_failure_passed_on_witness :
  discoverInboxUri_of Part000 "https://example.org/missing" (client linked) None start
  = (Rejected (Thrown "404 Not Found"),
     {| world := 1; trace := [EvGet "https://example.org/missing" accept] |})
  /\ parses (trace (snd (discoverInboxUri_of Part000 "https://example.org/missing"
                           (client linked) None start)))
     = parses (trace start).
Proof.
  apply (discover_get_failure_passed_on Part000 "https://example.org/missing"
           (client linked) start "404 Not Found" 1).
  reflexivity.
Defined.

(** A fetched resource without link header whose body does not parse. *)
Lemma discover_parse_failure_passed_on_witness :
  discoverInboxUri_of IndexJs doc (Faulty.client Faulty.garbled) None start
  = (Rejected (Thrown "Unexpected token"),
     {| world := 2; trace := [EvGet doc None; EvParsedGraph] |}).
Proof.
  apply (discover_parse_failure_passed_on IndexJs doc (Faulty.client Faulty.garbled)
           None start Faulty.garbled {| world := 1; trace := [EvGet doc None] |}
           "Unexpected token" 2);
    reflexivity.
Defined.

(** Listing the inbox of a resource that names none: two client calls, both
    of discovery. *)
Lemma list_stops_when_discovery_fails_witness :
  Notifications.list doc (mkOptions (Some (client bare)) None None) start
  = (Rejected (Error "No inbox uri found for resource."),
     {| world := 2; trace := [EvGet doc accept; EvParsedGraph] |}).
Proof.
  apply (list_stops_when_discovery_fails doc (mkOptions (Some (client bare)) None None)
           (client bare) start);
    reflexivity.
Defined.

(** Sending, with an empty inboxUri, to a resource whose body does not
    parse: nothing is posted. *)
Lemma send_stops_when_discovery_fails_witness :
  send_of IndexJs doc "{}"
    (mkOptions (Some (Faulty.client Faulty.garbled)) (Some "") None) start
  = (Rejected (Thrown "Unexpected token"),
     {| world := 2; trace := [EvGet doc None; EvParsedGraph] |})
  /\ requests [EvGet doc None; EvParsedGraph] = requests [].
Proof.
  apply (send_stops_when_discovery_fails IndexJs doc "{}"
           (mkOptions (Some (Faulty.client Faulty.garbled)) (Some "") None)
           (Faulty.client Faulty.garbled) start);
    reflexivity.
Defined.

(** The rejection of [send] on a resource that names no inbox is classified
    as the discovery error. *)
Lemma own_errors_classified_witness :
  ("No inbox uri found for resource." = "Web client instance is required"
   /\ webClient (mkOptions (Some (client bare)) None None) = None)
  \/ ("No inbox uri found for resource." = "No inbox uri found for resource."
      /\ webClient (mkOptions (Some (client bare)) None None) <> None
      /\ truthy_opt (inboxUri (mkOptions (Some (client bare)) None None)) = false).
Proof.
  apply (own_errors_classified IndexJs doc "{}"
           (mkOptions (Some (client bare)) None None) start).
  right. reflexivity.
Defined.

(** Discover once, then send with the discovered inbox. *)
Lemma send_reuses_discovered_inbox_witness :
  send_of Part000 doc "{}" (mkOptions (Some (client linked)) None (Some "text/turtle")) start
  = send_of Part000 "https://example.org/elsewhere" "{}"
      (mkOptions (Some (client linked)) (Some inbox) (Some "text/turtle"))
      {| world := 1; trace := [EvGet doc accept] |}.
Proof.
  apply (send_reuses_discovered_inbox Part000 doc "https://example.org/elsewhere" "{}"
           (mkOptions (Some (client linked)) None (Some "text/turtle"))
           (client linked) start inbox {| world := 1; trace := [EvGet doc accept] |});
    reflexivity.
Defined.

(** Discover once, then list with the discovered inbox. *)
Lemma list_reuses_discovered_inbox_witness :
  Notifications.list doc (mkOptions (Some (client linked)) None None) start
  = Notifications.list "https://example.org/elsewhere"
      (mkOptions (Some (client linked)) (Some inbox) None)
      {| world := 1; trace := [EvGet doc accept] |}.
Proof.
  apply (list_reuses_discovered_inbox doc "https://example.org/elsewhere"
           (mkOptions (Some (client linked)) None None)
           (client linked) start inbox {| world := 1; trace := [EvGet doc accept] |});
    reflexivity.
Defined.

(** The test client does not look at request headers: both copies discover
    the same inbox in the body of the fetched resource. *)
Lemma copies_agree_on_discovery_witness :
  fst (Index.discoverInboxUri doc (client described) None start)
  = fst (Notifications.discoverInboxUri doc (client described) None start)
  /\ world (snd (Index.discoverInboxUri doc (client described) None start))
     = world (snd (Notifications.discoverInboxUri doc (client described) None start)).
Proof.
  apply (copies_agree_on_discovery doc (client described) None start).
  intros _. reflexivity.
Defined.
End FurtherRuns.
